(** * resource-collector-component: the collection engine

    A shallow embedding of the Go component (catalog, World Bank client,
    collection orchestrator, bounded run history, JSON-LD export, publish
    relay and the tool dispatcher) together with the properties of the
    design document that concern it.

    Conventions.
    - Go [int] and [len] results are [Z]; strings are byte strings.
    - [map[string]any] is a [gmap string any]; [any] is the tagged union of
      the dynamic types the component boxes.
    - The process-wide [runs] slice, the clock and the HTTP transport form an
      explicit [World] that every effectful function threads.  The RWMutex
      only serialises accesses, so each function runs atomically on its
      [World].
    - What the Go standard library decides (JSON lexing, float conversion,
      URL syntax, the wall clock, the network) enters as section variables;
      what the component decides is written out. *)

From Stdlib Require Import ZArith Ascii String List Lia Sorted Permutation.
From stdpp Require Import base option list gmap strings pretty.

Set Warnings "-register-all".

Local Open Scope string_scope.
Local Open Scope Z_scope.

(** ** Byte-string helpers ([strings], [fmt]) *)

Module Str.

Definition is_upper (c : ascii) : bool :=
  let n := N_of_ascii c in ((65 <=? n) && (n <=? 90))%N.

Definition lower_ascii (c : ascii) : ascii :=
  if is_upper c then ascii_of_N (N_of_ascii c + 32) else c.

(** Lower-casing of the letters A to Z; every other byte stays. *)
Fixpoint lower (s : string) : string :=
  match s with
  | EmptyString => EmptyString
  | String c r => String (lower_ascii c) (lower r)
  end.

Fixpoint is_ascii (s : string) : bool :=
  match s with
  | EmptyString => true
  | String c r => (N_of_ascii c <? 128)%N && is_ascii r
  end.

(** The white space of [unicode.IsSpace], by its UTF-8 encoding: the ASCII
    characters tab to carriage return and blank, *)
Definition is_space (c : ascii) : bool :=
  let n := N_of_ascii c in
  ((n =? 32) || ((9 <=? n) && (n <=? 13)))%N.

(** U+0085 and U+00A0, *)
Definition is_space2 (a b : ascii) : bool :=
  let '(x, y) := (N_of_ascii a, N_of_ascii b) in
  ((x =? 194) && ((y =? 133) || (y =? 160)))%N.

(** and U+1680, U+2000 to U+200A, U+2028, U+2029, U+202F, U+205F, U+3000. *)
Definition is_space3 (a b c : ascii) : bool :=
  let '(x, y, z) := (N_of_ascii a, N_of_ascii b, N_of_ascii c) in
  (((x =? 225) && (y =? 154) && (z =? 128))
   || ((x =? 226) && (y =? 128)
       && (((128 <=? z) && (z <=? 138)) || (z =? 168) || (z =? 169) || (z =? 175)))
   || ((x =? 226) && (y =? 129) && (z =? 159))
   || ((x =? 227) && (y =? 128) && (z =? 128)))%N.

(** Cuts the white space runes a byte sequence starts with; [back] tells
    that the sequence is read from its end, bytes in reverse. *)
Fixpoint cut_spaces (back : bool) (l : list ascii) : list ascii :=
  match l with
  | a :: r =>
      if is_space a then cut_spaces back r
      else
        match r with
        | b :: r2 =>
            if (if back then is_space2 b a else is_space2 a b) then cut_spaces back r2
            else
              match r2 with
              | c :: r3 =>
                  if (if back then is_space3 c b a else is_space3 a b c)
                  then cut_spaces back r3 else l
              | [] => l
              end
        | [] => l
        end
  | [] => []
  end.

(** [strings.TrimSpace]. *)
Definition TrimSpace (s : string) : string :=
  let l := cut_spaces false (list_ascii_of_string s) in
  string_of_list_ascii (rev (cut_spaces true (rev l))).

(** [io.LimitReader]: at most [n] bytes of the stream. *)
Fixpoint take_bytes (n : N) (s : string) : string :=
  match s with
  | String c r =>
      if (n =? 0)%N then EmptyString else String c (take_bytes (N.pred n) r)
  | EmptyString => EmptyString
  end.

Definition is_digit (c : ascii) : bool :=
  let n := N_of_ascii c in ((48 <=? n) && (n <=? 57))%N.

Definition is_sign (c : ascii) : bool :=
  let n := N_of_ascii c in ((n =? 43) || (n =? 45))%N.

(** The token [scanNumber] accumulates for the verb [%d]: the longest run
    of decimal digits. *)
Fixpoint scan_token (s : string) : list ascii :=
  match s with
  | String c r => if is_digit c then c :: scan_token r else []
  | EmptyString => []
  end.

Definition digit_val (c : ascii) : Z := Z.of_N (N_of_ascii c) - 48.

(** The value of a run of decimal digits. *)
Definition digits_value (tok : list ascii) : Z :=
  fold_left (fun acc c => 10 * acc + digit_val c) tok 0.

(** [fmt.Sscanf(s, "%d", &n)] for an [int] of [bits] bits: an optional sign,
    then at least one digit; what follows the digits is left unread.  [None]
    when the scan reports an error (no digit, or a value out of range) and
    leaves [n] untouched. *)
Definition Sscanf_d (bits : Z) (s : string) : option Z :=
  let '(neg, rest) :=
    match s with
    | String c r => if is_sign c then ((N_of_ascii c =? 45)%N, r) else (false, s)
    | EmptyString => (false, s)
    end in
  match scan_token rest with
  | [] => None
  | tok =>
      let m := digits_value tok in
      let v := if neg then - m else m in
      if (- 2 ^ (bits - 1) <=? v) && (v <=? 2 ^ (bits - 1) - 1)
      then Some v else None
  end.

(** [stringContainsCTLByte] of [net/url]. *)
Fixpoint containsCTLByte (s : string) : bool :=
  match s with
  | EmptyString => false
  | String c r =>
      let n := N_of_ascii c in
      ((n <? 32) || (n =? 127))%N || containsCTLByte r
  end.

(** The part of [s] in front of the first [sep], all of [s] when it holds
    none: the first result of [strings.Cut]. *)
Fixpoint cut_before (sep : ascii) (s : string) : string :=
  match s with
  | EmptyString => EmptyString
  | String c r => if Ascii.eqb c sep then EmptyString else String c (cut_before sep r)
  end.

(** [a == b] on strings. *)
Definition eqb (a b : string) : bool := bool_decide (a = b).

End Str.

(** ** JSON documents ([encoding/json]) *)

Inductive json : Type :=
| JNull
| JBool (b : bool)
| JNumber (lit : string)
| JString (s : string)
| JArray (elems : list json)
| JObject (members : list (string * json)).

(** The word [encoding/json] uses for a value in an [UnmarshalTypeError]. *)
Definition json_kind (j : json) : string :=
  match j with
  | JNull => "null"
  | JBool _ => "bool"
  | JNumber lit => "number " +:+ lit
  | JString _ => "string"
  | JArray _ => "array"
  | JObject _ => "object"
  end.

(** Errors of the decoder: a syntax error of the scanner, or a value that
    does not fit the Go type it is decoded into ([field] names the struct
    field being filled, and is empty outside a struct). *)
Inductive jsonError : Type :=
| SyntaxError (msg : string)
| UnmarshalTypeError (value : string) (gotype : string) (field : string).

Definition jsonError_Error (e : jsonError) : string :=
  match e with
  | SyntaxError msg => msg
  | UnmarshalTypeError v t f =>
      if Str.eqb f "" then
        "json: cannot unmarshal " +:+ v +:+ " into Go value of type " +:+ t
      else
        "json: cannot unmarshal " +:+ v +:+ " into Go struct field ." +:+ f
          +:+ " of type " +:+ t
  end.

(** A small error monad on [sum]. *)
Definition ebind {E A B} (m : E + A) (k : A -> E + B) : E + B :=
  match m with inl e => inl e | inr a => k a end.

Notation "'let?' x ':=' m 'in' k" := (ebind m (fun x => k))
  (at level 10, x name, m at level 100, k at level 200).

Fixpoint emapM {E A B} (f : A -> E + B) (l : list A) : E + list B :=
  match l with
  | [] => inr []
  | x :: r => let? y := f x in let? ys := emapM f r in inr (y :: ys)
  end.

(** ** The component *)

Section Collector.

(** *** What the platform decides *)

(** IEEE double values: the component only stores and forwards them. *)
Variable float64 : Type.
(** The conversion [int(t)] of a [float64]. *)
Variable float64_to_int : float64 -> Z.
(** [strconv.ParseFloat(lit, 64)] on a JSON number literal; [None] is a
    range error. *)
Variable ParseFloat : string -> option float64.
(** Width of [int] (32 or 64, by target). *)
Variable intBits : Z.
(** The scanner of [encoding/json]: syntax check and tokenisation. *)
Variable json_scan : string -> jsonError + json.
(** The message with which [net/url] rejects a string free of control
    bytes, if it does. *)
Variable url_syntax_err : string -> option string.
(** [strconv.Quote], with which [net/url] cites the URL it rejects. *)
Variable strconv_Quote : string -> string.
(** [strings.ToLower] on a string with a byte above 127: the case mapping of
    the Unicode tables. *)
Variable unicode_ToLower : string -> string.

(** [strings.ToLower]. *)
Definition ToLower (s : string) : string :=
  if Str.is_ascii s then Str.lower s else unicode_ToLower s.

(** *** Domain types *)

Record resourceDef := {
  rd_ID : string;
  rd_Name : string;
  rd_Type : string;
  rd_Unit : string;
  rd_Description : string;
  rd_SourceURL : string;
  rd_Indicator : string }.

Record region := { reg_Code : string; reg_Name : string }.

Record collectedValue := {
  cv_ResourceID : string;
  cv_Region : string;
  cv_RegionName : string;
  cv_Year : Z;
  cv_Value : float64;
  cv_Unit : string;
  cv_Source : string;
  cv_FetchedAt : string }.

Record collectionRun := {
  run_ID : string;
  run_StartedAt : string;
  run_FinishedAt : string;
  run_Status : string;
  run_Resources : Z;
  run_Collected : Z;
  run_Errors : list string;
  run_Values : list collectedValue }.

Record jsonldResource := {
  ld_Context : string;
  ld_Type : string;
  ld_ID : string;
  ld_Name : string;
  ld_Description : string;
  ld_Region : string;
  ld_Year : Z;
  ld_Value : float64;
  ld_Unit : string;
  ld_Source : string;
  ld_DateCreated : string }.

(** The dynamic values the component boxes in [any].  A nil slice and an
    empty slice are both the empty list. *)
Inductive any : Type :=
| ANil
| ABool (b : bool)
| AFloat (f : float64)
| AInt (n : Z)
| AString (s : string)
| ASlice (l : list any)
| AMap (m : gmap string any)
| ARun (r : collectionRun)
| AValues (l : list collectedValue)
| ACatalog (l : list resourceDef)
| AGraph (l : list jsonldResource).

(** The verb [%v] of [fmt] on a boxed value. *)
Variable fmt_v : any -> string.

(** [args[k]]: the zero value [nil] for an absent key. *)
Definition index (m : gmap string any) (k : string) : any :=
  default ANil (m !! k).

(** *** Decoding JSON into Go values *)

(** Into [any]: numbers become [float64], objects become maps in which a
    later duplicate key wins. *)
Fixpoint any_of_json (j : json) : jsonError + any :=
  match j with
  | JNull => inr ANil
  | JBool b => inr (ABool b)
  | JNumber lit =>
      match ParseFloat lit with
      | Some f => inr (AFloat f)
      | None => inl (UnmarshalTypeError (json_kind j) "float64" "")
      end
  | JString s => inr (AString s)
  | JArray elems =>
      let? l := (fix go (js : list json) : jsonError + list any :=
               match js with
               | [] => inr []
               | x :: r => let? a := any_of_json x in let? l := go r in inr (a :: l)
               end) elems in
      inr (ASlice l)
  | JObject members =>
      let? m := (fix go (acc : gmap string any) (kvs : list (string * json))
               : jsonError + gmap string any :=
               match kvs with
               | [] => inr acc
               | (k, v) :: r => let? a := any_of_json v in go (<[k := a]> acc) r
               end) ∅ members in
      inr (AMap m)
  end.

(** [json.Unmarshal(body, &parsed)] for [parsed map[string]any]: [null]
    leaves the nil map. *)
Definition Unmarshal_map (body : string) : jsonError + gmap string any :=
  let? j := json_scan body in
  match j with
  | JNull => inr ∅
  | JObject _ =>
      let? a := any_of_json j in
      match a with AMap m => inr m | _ => inr ∅ end
  | _ => inl (UnmarshalTypeError (json_kind j) "map[string]interface {}" "")
  end.

(** [json.Unmarshal(body, &raw)] for [raw []json.RawMessage]: the elements
    stay undecoded. *)
Definition Unmarshal_raw (body : string) : jsonError + list json :=
  let? j := json_scan body in
  match j with
  | JNull => inr []
  | JArray elems => inr elems
  | _ => inl (UnmarshalTypeError (json_kind j) "[]json.RawMessage" "")
  end.

(** One element of [entries]: [struct { Date string; Value *float64 }]. *)
Record entry := { e_Date : string; e_Value : option float64 }.

(** A key selects a field when it equals the tag up to ASCII case. *)
Definition field_is (tag key : string) : bool :=
  Str.eqb (Str.lower key) tag.

(** One member of an object decoded into an [entry]: [null] leaves a
    string alone and clears a pointer; an unknown key is skipped. *)
Definition decode_member (e : entry) (kv : string * json) : jsonError + entry :=
  let '(k, v) := kv in
  if field_is "date" k then
    match v with
    | JString s => inr {| e_Date := s; e_Value := e_Value e |}
    | JNull => inr e
    | _ => inl (UnmarshalTypeError (json_kind v) "string" "date")
    end
  else if field_is "value" k then
    match v with
    | JNumber lit =>
        match ParseFloat lit with
        | Some f => inr {| e_Date := e_Date e; e_Value := Some f |}
        | None => inl (UnmarshalTypeError (json_kind v) "float64" "value")
        end
    | JNull => inr {| e_Date := e_Date e; e_Value := None |}
    | _ => inl (UnmarshalTypeError (json_kind v) "float64" "value")
    end
  else inr e.

Fixpoint decode_members (e : entry) (kvs : list (string * json)) : jsonError + entry :=
  match kvs with
  | [] => inr e
  | kv :: r => let? e1 := decode_member e kv in decode_members e1 r
  end.

Definition entry_zero : entry := {| e_Date := ""; e_Value := None |}.

Definition decode_entry (j : json) : jsonError + entry :=
  match j with
  | JNull => inr entry_zero
  | JObject members => decode_members entry_zero members
  | _ =>
      inl (UnmarshalTypeError (json_kind j)
             "struct { Date string; Value *float64 }" "")
  end.

(** [json.Unmarshal(raw[1], &entries)]. *)
Definition Unmarshal_entries (j : json) : jsonError + list entry :=
  match j with
  | JNull => inr []
  | JArray elems => emapM decode_entry elems
  | _ =>
      inl (UnmarshalTypeError (json_kind j)
             "[]struct { Date string; Value *float64 }" "")
  end.

(** *** State: catalog, regions, run history, clock and transport *)

Definition mkResource (id name type unit description indicator : string) : resourceDef :=
  {| rd_ID := id; rd_Name := name; rd_Type := type; rd_Unit := unit;
     rd_Description := description;
     rd_SourceURL := "https://api.worldbank.org/v2/country/all/indicator/";
     rd_Indicator := indicator |}.

Definition catalog : list resourceDef := [
  mkResource "crude-oil" "Crude Oil" "energy" "million barrels/day" "Global crude oil production" "EG.ELC.PETR.ZS";
  mkResource "natural-gas" "Natural Gas" "energy" "billion cubic meters" "Natural gas production" "EG.ELC.NGAS.ZS";
  mkResource "coal" "Coal" "energy" "million tonnes" "Coal production and consumption" "EG.ELC.COAL.ZS";
  mkResource "lithium" "Lithium" "mineral" "thousand tonnes LCE" "Lithium production for batteries" "TX.VAL.MMTL.ZS.UN";
  mkResource "iron-ore" "Iron Ore" "mineral" "million tonnes" "Iron ore extraction" "TX.VAL.MMTL.ZS.UN";
  mkResource "wheat" "Wheat" "food" "million tonnes" "Global wheat production and trade" "AG.PRD.FOOD.XD";
  mkResource "rice" "Rice" "food" "million tonnes" "Global rice production" "AG.PRD.FOOD.XD";
  mkResource "semiconductors" "Semiconductors" "technology" "billion USD" "Semiconductor production and trade value" "NV.IND.MANF.ZS";
  mkResource "rare-earth" "Rare Earth Elements" "mineral" "thousand tonnes" "Rare earth extraction" "TX.VAL.MMTL.ZS.UN";
  mkResource "copper" "Copper" "mineral" "million tonnes" "Copper mining and refining" "TX.VAL.MMTL.ZS.UN" ].

Definition mkRegion (code name : string) : region :=
  {| reg_Code := code; reg_Name := name |}.

Definition regions : list region := [
  mkRegion "USA" "United States"; mkRegion "CHN" "China"; mkRegion "JPN" "Japan";
  mkRegion "DEU" "Germany"; mkRegion "GBR" "United Kingdom"; mkRegion "IND" "India";
  mkRegion "FRA" "France"; mkRegion "BRA" "Brazil"; mkRegion "SAU" "Saudi Arabia";
  mkRegion "RUS" "Russia"; mkRegion "AUS" "Australia"; mkRegion "KOR" "South Korea";
  mkRegion "TWN" "Taiwan"; mkRegion "CHL" "Chile"; mkRegion "ARG" "Argentina" ].

(** A reading of the clock, with the two views the component takes of it. *)
Record Time := { UnixNano : Z; RFC3339 : string }.

Record Request := { req_Method : string; req_URL : string; req_Body : option any }.

Record Response := { StatusCode : Z; resp_Body : string }.

(** The [n]-th reading of the clock. *)
Variable time_Now : nat -> Time.
(** The outcome of the [n]-th request handed to the HTTP client: a
    transport error or a response. *)
Variable http_RoundTrip : nat -> Request -> string + Response.

Record World := {
  runs : list collectionRun;
  ticks : nat;
  sent : list Request }.

Definition world0 : World := {| runs := []; ticks := 0; sent := [] |}.

Definition Now (w : World) : Time * World :=
  (time_Now (ticks w),
   {| runs := runs w; ticks := S (ticks w); sent := sent w |}).

Definition client_Do (req : Request) (w : World) : (string + Response) * World :=
  (http_RoundTrip (length (sent w)) req,
   {| runs := runs w; ticks := ticks w; sent := (sent w ++ [req])%list |}).

(** [http.NewRequest]: the URL has to parse.  [url.Parse] cuts the fragment
    off at the first [#] and refuses a control byte in what stands in front
    of it. *)
Definition http_NewRequest (method url : string) (body : option any) : string + Request :=
  let u := Str.cut_before "#" url in
  if Str.containsCTLByte u then
    inl ("parse " +:+ strconv_Quote u +:+ ": net/url: invalid control character in URL")
  else
    match url_syntax_err url with
    | Some msg => inl msg
    | None => inr {| req_Method := method; req_URL := url; req_Body := body |}
    end.

Definition client_Get (url : string) (w : World) : (string + Response) * World :=
  match http_NewRequest "GET" url None with
  | inl err => (inl err, w)
  | inr req => client_Do req w
  end.

(** *** Helpers *)

(** [len]: a Go [int]. *)
Definition len {A} (l : list A) : Z := Z.of_nat (length l).

Definition toStringSlice (v : any) : list string :=
  match v with
  | ASlice raw =>
      omap (fun x =>
              match x with
              | AString s =>
                  if Str.eqb (Str.TrimSpace s) "" then None else Some (Str.TrimSpace s)
              | _ => None
              end) raw
  | _ => []
  end.

Definition strVal (v : any) : string :=
  match v with
  | AString s => Str.TrimSpace s
  | _ => ""
  end.

Definition toInt (v : any) : Z :=
  match v with
  | AFloat t => float64_to_int t
  | AInt t => t
  | AString t => default 0 (Str.Sscanf_d intBits (Str.TrimSpace t))
  | _ => 0
  end.

(** *** [sort.Slice] *)

(** The inner loop of the insertion sort: [x] travels left past every
    neighbour it is less than.  The prefix is held reversed, its head being
    the left neighbour of [x]. *)
Fixpoint sift {A} (less : A -> A -> bool) (x : A) (rev_prefix : list A) : list A :=
  match rev_prefix with
  | y :: r => if less x y then y :: sift less x r else x :: rev_prefix
  | [] => [x]
  end.

(** [sort.Slice(l, less)], run as the insertion sort the library uses on
    short slices.  The library promises a permutation ordered by [less];
    the place of elements that compare equal is not part of its contract. *)
Definition sort_Slice {A} (less : A -> A -> bool) (l : list A) : list A :=
  rev (fold_left (fun acc x => sift less x acc) l []).

(** *** External data source client *)

Record wbDataPoint := { year : Z; value : float64 }.

Inductive fetchErr : Type :=
| ErrHttp (err : string)
| ErrStatus (code : Z)
| ErrJson (err : jsonError)
| ErrNoData
| ErrParseEntries (err : jsonError).

Definition fetchErr_Error (e : fetchErr) : string :=
  match e with
  | ErrHttp err => "http: " +:+ err
  | ErrStatus code => "http " +:+ pretty code
  | ErrJson err => "json: " +:+ jsonError_Error err
  | ErrNoData => "no data"
  | ErrParseEntries err => "parse entries: " +:+ jsonError_Error err
  end.

(** One turn of the loop over [entries]. *)
Definition point_of_entry (e : entry) : option wbDataPoint :=
  match e_Value e with
  | None => None
  | Some v =>
      let year := toInt (AString (e_Date e)) in
      if year =? 0 then None else Some {| year := year; value := v |}
  end.

Definition fetch_url (indicator countryCode : string) (targetYear : Z) : string :=
  let dateRange :=
    if 0 <? targetYear then pretty targetYear +:+ ":" +:+ pretty targetYear
    else "2020:2024" in
  "https://api.worldbank.org/v2/country/" +:+ ToLower countryCode
    +:+ "/indicator/" +:+ indicator +:+ "?date=" +:+ dateRange
    +:+ "&format=json&per_page=50".

(** What [fetchWorldBankData] makes of a response. *)
Definition decode_response (resp : Response) : fetchErr + list wbDataPoint :=
  let body := Str.take_bytes (512 * 1024) (resp_Body resp) in
  if (StatusCode resp <? 200) || (299 <? StatusCode resp) then
    inl (ErrStatus (StatusCode resp))
  else
    match Unmarshal_raw body with
    | inl err => inl (ErrJson err)
    | inr raw =>
        if len raw <? 2 then inl ErrNoData
        else
          match Unmarshal_entries (default JNull (raw !! 1%nat)) with
          | inl err => inl (ErrParseEntries err)
          | inr entries =>
              let points := omap point_of_entry entries in
              inr (sort_Slice (fun pi pj => year pj <? year pi) points)
          end
    end.

Definition fetchWorldBankData (indicator countryCode : string) (targetYear : Z)
    (w : World) : (fetchErr + list wbDataPoint) * World :=
  let '(r, w1) := client_Get (fetch_url indicator countryCode targetYear) w in
  match r with
  | inl err => (inl (ErrHttp err), w1)
  | inr resp => (decode_response resp, w1)
  end.

(** *** Collection engine *)

Definition run_addError (run : collectionRun) (msg : string) : collectionRun :=
  {| run_ID := run_ID run; run_StartedAt := run_StartedAt run;
     run_FinishedAt := run_FinishedAt run; run_Status := run_Status run;
     run_Resources := run_Resources run; run_Collected := run_Collected run;
     run_Errors := (run_Errors run ++ [msg])%list; run_Values := run_Values run |}.

Definition run_addValue (run : collectionRun) (v : collectedValue) : collectionRun :=
  {| run_ID := run_ID run; run_StartedAt := run_StartedAt run;
     run_FinishedAt := run_FinishedAt run; run_Status := run_Status run;
     run_Resources := run_Resources run; run_Collected := run_Collected run;
     run_Errors := run_Errors run; run_Values := (run_Values run ++ [v])%list |}.

(** The resources a run scans. *)
Definition targetResources (filterIDs : list string) : list resourceDef :=
  if 0 <? len filterIDs then
    let idSet : gmap string bool :=
      fold_left (fun m id => <[id := true]> m) filterIDs ∅ in
    List.filter (fun r => default false (idSet !! rd_ID r)) catalog
  else catalog.

Definition mkValue (now : Time) (res : resourceDef) (reg : region) (v : wbDataPoint)
    : collectedValue :=
  {| cv_ResourceID := rd_ID res;
     cv_Region := reg_Code reg;
     cv_RegionName := reg_Name reg;
     cv_Year := year v;
     cv_Value := value v;
     cv_Unit := rd_Unit res;
     cv_Source := "World Bank API";
     cv_FetchedAt := RFC3339 now |}.

(** Body of the inner loop, for one region. *)
Definition scan_region (yr : Z) (now : Time) (res : resourceDef)
    (st : collectionRun * World) (reg : region) : collectionRun * World :=
  let '(run, w) := st in
  let '(r, w1) := fetchWorldBankData (rd_Indicator res) (reg_Code reg) yr w in
  match r with
  | inl err =>
      (run_addError run
         (rd_ID res +:+ "/" +:+ reg_Code reg +:+ ": " +:+ fetchErr_Error err), w1)
  | inr values =>
      (fold_left (fun run v => run_addValue run (mkValue now res reg v)) values run, w1)
  end.

(** Body of the outer loop, for one resource. *)
Definition scan_resource (yr : Z) (now : Time)
    (st : collectionRun * World) (res : resourceDef) : collectionRun * World :=
  fold_left (scan_region yr now res) regions st.

Definition derive_status (run : collectionRun) : string :=
  if (0 <? len (run_Errors run)) && (run_Collected run =? 0) then "failed"
  else if 0 <? len (run_Errors run) then "partial"
  else "completed".

Definition executeCollection (filterIDs : list string) (yr : Z) (w : World)
    : collectionRun * World :=
  let '(now, w1) := Now w in
  let targets := targetResources filterIDs in
  let run :=
    {| run_ID := "run-" +:+ pretty (UnixNano now);
       run_StartedAt := RFC3339 now;
       run_FinishedAt := "";
       run_Status := "running";
       run_Resources := len targets;
       run_Collected := 0;
       run_Errors := [];
       run_Values := [] |} in
  let '(run, w2) := fold_left (scan_resource yr now) targets (run, w1) in
  let '(fin, w3) := Now w2 in
  let run :=
    {| run_ID := run_ID run; run_StartedAt := run_StartedAt run;
       run_FinishedAt := RFC3339 fin; run_Status := run_Status run;
       run_Resources := run_Resources run;
       run_Collected := len (run_Values run);
       run_Errors := run_Errors run; run_Values := run_Values run |} in
  let run :=
    {| run_ID := run_ID run; run_StartedAt := run_StartedAt run;
       run_FinishedAt := run_FinishedAt run; run_Status := derive_status run;
       run_Resources := run_Resources run; run_Collected := run_Collected run;
       run_Errors := run_Errors run; run_Values := run_Values run |} in
  let rs := (runs w3 ++ [run])%list in
  let rs := if 50 <? len rs then drop (length rs - 50)%nat rs else rs in
  (run, {| runs := rs; ticks := ticks w3; sent := sent w3 |}).

(** *** JSON-LD export *)

Definition mkNode (v : collectedValue) : jsonldResource :=
  {| ld_Context := "https://schema.org/";
     ld_Type := "Observation";
     ld_ID := "https://resources.gftd.ai/content/resource/" +:+ cv_ResourceID v
                +:+ "/" +:+ ToLower (cv_Region v) +:+ "/" +:+ pretty (cv_Year v);
     ld_Name := cv_ResourceID v +:+ " - " +:+ cv_RegionName v
                  +:+ " (" +:+ pretty (cv_Year v) +:+ ")";
     ld_Description := "Collected value for " +:+ cv_ResourceID v +:+ " in "
                         +:+ cv_RegionName v +:+ ", year " +:+ pretty (cv_Year v);
     ld_Region := cv_RegionName v;
     ld_Year := cv_Year v;
     ld_Value := cv_Value v;
     ld_Unit := cv_Unit v;
     ld_Source := cv_Source v;
     ld_DateCreated := cv_FetchedAt v |}.

(** The values the export loop does not skip. *)
Definition exported (resourceID : string) (v : collectedValue) : bool :=
  negb (negb (Str.eqb resourceID "") && negb (Str.eqb (cv_ResourceID v) resourceID)).

Definition exportJSONLD (resourceID : string) (w : World) : string + any :=
  match last (runs w) with
  | None => inl "no collection runs available; call collector.run first"
  | Some latest =>
      let graph := map mkNode (List.filter (exported resourceID) (run_Values latest)) in
      inr (AMap {[
        "@context" := AString "https://schema.org/";
        "@type" := AString "Dataset";
        "@id" := AString "https://resources.gftd.ai/content/resource/collection";
        "name" := AString "GFTD Global Resource Collection";
        "dateCreated" := AString (run_FinishedAt latest);
        "@graph" := AGraph graph;
        "count" := AInt (len graph) ]})
  end.

(** *** Publish relay *)

Definition callExternalMCPTool (mcpURL toolName : string) (args : gmap string any)
    (w : World) : (string + gmap string any) * World :=
  let '(now, w1) := Now w in
  let reqBody : gmap string any := {[
    "jsonrpc" := AString "2.0";
    "id" := AString ("collector-" +:+ pretty (UnixNano now));
    "method" := AString "tools/call";
    "params" := AMap {[ "name" := AString toolName; "arguments" := AMap args ]} ]} in
  match http_NewRequest "POST" mcpURL (Some (AMap reqBody)) with
  | inl err => (inl err, w1)
  | inr req =>
      let '(r, w2) := client_Do req w1 in
      match r with
      | inl err => (inl err, w2)
      | inr resp =>
          let body := Str.take_bytes (1024 * 1024) (resp_Body resp) in
          if (StatusCode resp <? 200) || (299 <? StatusCode resp) then
            (inl ("http " +:+ pretty (StatusCode resp)), w2)
          else
            match Unmarshal_map body with
            | inl err => (inl (jsonError_Error err), w2)
            | inr parsed =>
                match parsed !! "error" with
                | Some (AMap e) =>
                    (inl ("mcp error: " +:+ fmt_v (index e "message")), w2)
                | _ =>
                    match parsed !! "result" with
                    | Some (AMap result) => (inr result, w2)
                    | _ => (inr parsed, w2)
                    end
                end
            end
      end
  end.

Definition publishToMCP (targetURL : string) (w : World) : (string + any) * World :=
  match last (runs w) with
  | None => (inl "no collection runs; call collector.run first", w)
  | Some latest =>
      let values := run_Values latest in
      if len values =? 0 then
        (inr (AMap {[ "status" := AString "skipped";
                      "reason" := AString "no values to publish" ]}), w)
      else
        let '(r, w1) := callExternalMCPTool targetURL "global.list_resources" ∅ w in
        match r with
        | inl err =>
            (inr (AMap {[ "status" := AString "error"; "detail" := AString err ]}), w1)
        | inr result =>
            (inr (AMap {[
               "status" := AString "published";
               "values_count" := AInt (len values);
               "target_url" := AString targetURL;
               "target_response" := AMap result ]}), w1)
        end
  end.

(** *** Tool dispatch *)

Definition summary (r : collectionRun) : gmap string any := {[
  "id" := AString (run_ID r);
  "started_at" := AString (run_StartedAt r);
  "finished_at" := AString (run_FinishedAt r);
  "status" := AString (run_Status r);
  "resources_requested" := AInt (run_Resources r);
  "values_collected" := AInt (run_Collected r);
  "error_count" := AInt (len (run_Errors r)) ]}.

(** The run [collector.get_collected] reads. *)
Definition get_target (runID : string) (w : World) : option collectionRun :=
  if negb (Str.eqb runID "") then
    List.find (fun r => Str.eqb (run_ID r) runID) (runs w)
  else if 0 <? len (runs w) then last (runs w)
  else None.

Definition callTool (name : string) (args : gmap string any) (w : World)
    : (string + any) * World :=
  if Str.eqb name "collector.run" then
    let resourceIDs := toStringSlice (index args "resource_ids") in
    let yr := toInt (index args "year") in
    let '(run, w1) := executeCollection resourceIDs yr w in
    (inr (AMap {[ "run" := ARun run ]}), w1)
  else if Str.eqb name "collector.status" then
    let recent := runs w in
    let recent :=
      if 10 <? len recent then drop (length recent - 10)%nat recent else recent in
    let summaries := map summary recent in
    (inr (AMap {[ "runs" := ASlice (map AMap summaries);
                  "count" := AInt (len summaries) ]}), w)
  else if Str.eqb name "collector.list_catalog" then
    (inr (AMap {[ "resources" := ACatalog catalog; "count" := AInt (len catalog) ]}), w)
  else if Str.eqb name "collector.get_collected" then
    let resourceID := strVal (index args "resource_id") in
    let runID := strVal (index args "run_id") in
    match get_target runID w with
    | None => (inl "no collection runs found", w)
    | Some target =>
        let values := run_Values target in
        let values :=
          if negb (Str.eqb resourceID "") then
            List.filter (fun v => Str.eqb (cv_ResourceID v) resourceID) values
          else values in
        (inr (AMap {[ "run_id" := AString (run_ID target);
                      "values" := AValues values;
                      "count" := AInt (len values) ]}), w)
    end
  else if Str.eqb name "collector.export_jsonld" then
    let resourceID := strVal (index args "resource_id") in
    (exportJSONLD resourceID w, w)
  else if Str.eqb name "collector.publish" then
    let targetURL := strVal (index args "target_mcp_url") in
    let targetURL :=
      if Str.eqb targetURL "" then "https://actors.gftd.ai/w5n8p3q6/api/mcp"
      else targetURL in
    publishToMCP targetURL w
  else (inl ("unknown tool: " +:+ name), w).

(** The two entry points that reach the engine: the scheduler trigger and
    a [tools/call] request. *)
Inductive request : Type :=
| SchedulerTrigger
| ToolsCall (name : string) (args : gmap string any).

Definition handle (w : World) (rq : request) : World :=
  match rq with
  | SchedulerTrigger => snd (executeCollection [] 0 w)
  | ToolsCall name args => snd (callTool name args w)
  end.

(** The worlds the service can be in: those a sequence of requests leads to
    from the start. *)
Definition reachable (w : World) : Prop :=
  exists rqs : list request, w = fold_left handle rqs world0.

(** ** Vocabulary of the properties *)

(** *** The scan, as the list of its fetches *)

(** [run] with errors and values appended: all the loops do to it. *)
Definition run_extend (run : collectionRun) (errs : list string)
    (vals : list collectedValue) : collectionRun :=
  {| run_ID := run_ID run; run_StartedAt := run_StartedAt run;
     run_FinishedAt := run_FinishedAt run; run_Status := run_Status run;
     run_Resources := run_Resources run; run_Collected := run_Collected run;
     run_Errors := (run_Errors run ++ errs)%list;
     run_Values := (run_Values run ++ vals)%list |}.

(** The outcome of a fetch for one (resource, region) pair. *)
Definition outcome : Type := resourceDef * region * (fetchErr + list wbDataPoint).

(** The fetches a scan of [pairs] performs, in order, each on the world
    its predecessor left. *)
Fixpoint fetches (yr : Z) (pairs : list (resourceDef * region)) (w : World)
    : list outcome * World :=
  match pairs with
  | [] => ([], w)
  | (res, reg) :: rest =>
      let '(r, w1) := fetchWorldBankData (rd_Indicator res) (reg_Code reg) yr w in
      let '(log, w2) := fetches yr rest w1 in
      ((res, reg, r) :: log, w2)
  end.

(** The line a failed fetch leaves in the error list. *)
Definition error_line (o : outcome) : option string :=
  match o with
  | (res, reg, inl err) =>
      Some (rd_ID res +:+ "/" +:+ reg_Code reg +:+ ": " +:+ fetchErr_Error err)
  | (_, _, inr _) => None
  end.

(** The values a successful fetch leaves in the value list. *)
Definition outcome_values (now : Time) (o : outcome) : list collectedValue :=
  match o with
  | (res, reg, inr points) => map (mkValue now res reg) points
  | (_, _, inl _) => []
  end.

(** *** Summaries, requests and failures *)



(** Whether [http.NewRequest] makes a request of the URL. *)
Definition url_accepted (url : string) : bool :=
  match http_NewRequest "POST" url None with
  | inr _ => true
  | inl _ => false
  end.

(** The classes of failure of the design. *)
Inductive errorClass : Type := TransportError | ProtocolError | ParseError.

Definition fetchErr_class (e : fetchErr) : errorClass :=
  match e with
  | ErrHttp _ => TransportError
  | ErrStatus _ => ProtocolError
  | ErrJson _ | ErrNoData | ErrParseEntries _ => ParseError
  end.

(** A member the entry type can take: a string or null for the date, a
    number in range or null for the value, anything under another key. *)
Definition member_ok (kv : string * json) : bool :=
  let '(k, v) := kv in
  if field_is "date" k then
    match v with JString _ | JNull => true | _ => false end
  else if field_is "value" k then
    match v with
    | JNull => true
    | JNumber lit => match ParseFloat lit with Some _ => true | None => false end
    | _ => false
    end
  else true.

Definition entry_ok (j : json) : bool :=
  match j with
  | JNull => true
  | JObject members => forallb member_ok members
  | _ => false
  end.

Definition entries_ok (j : json) : bool :=
  match j with
  | JNull => true
  | JArray elems => forallb entry_ok elems
  | _ => false
  end.

(** A body the client accepts: a JSON array of at least two elements whose
    second element is null or an array of entries. *)
Definition envelope_ok (body : string) : bool :=
  match json_scan body with
  | inr (JArray (_ :: e :: _)) => entries_ok e
  | _ => false
  end.

Definition is_inr {E A} (r : E + A) : bool :=
  match r with inr _ => true | inl _ => false end.

(** ** Properties *)

(** *** Status derivation *)

Lemma len_pos_cons {A} (x : A) (l : list A) : 0 < len (x :: l).
Proof. unfold len. simpl length. lia. Qed.

Lemma derive_status_cases (run : collectionRun) :
  derive_status run =
    match run_Errors run with
    | [] => "completed"
    | _ :: _ => if run_Collected run =? 0 then "failed" else "partial"
    end.
Proof.
  unfold derive_status. destruct (run_Errors run) as [| e es].
  - reflexivity.
  - pose proof (len_pos_cons e es) as Hpos.
    apply Z.ltb_lt in Hpos. rewrite Hpos. simpl.
    destruct (run_Collected run =? 0); reflexivity.
Qed.

(** The run handed back is the one the history ends with. *)
Lemma last_drop_snoc {A} (l : list A) (x : A) (k : nat) :
  (k <= length l)%nat -> last (drop k (l ++ [x])%list) = Some x.
Proof.
  intros Hk. rewrite drop_app_le by exact Hk. apply last_snoc.
Qed.

Lemma executeCollection_stored filterIDs yr w :
  last (runs (snd (executeCollection filterIDs yr w)))
  = Some (fst (executeCollection filterIDs yr w)).
Proof.
  unfold executeCollection, Now.
  destruct (fold_left _ _ _) as [run w2]. cbn [fst snd runs].
  match goal with |- context [if ?b then _ else _] => destruct b end.
  - apply last_drop_snoc. rewrite length_app. simpl. lia.
  - apply last_snoc.
Qed.

(** C1. The status of the run [executeCollection] returns (and stores) is
    determined by its error list and its count of collected values:
    completed exactly when there is no error, failed exactly when there are
    errors and nothing was collected, partial exactly when there are errors
    and something was collected.  One of the three always holds, no two
    together, and the count is the length of the value list. *)
Theorem run_status_derivation filterIDs yr w :
  let run := fst (executeCollection filterIDs yr w) in
  last (runs (snd (executeCollection filterIDs yr w))) = Some run /\
  (run_Status run = "completed" <-> run_Errors run = []) /\
  (run_Status run = "failed" <-> run_Errors run <> [] /\ run_Collected run = 0) /\
  (run_Status run = "partial" <-> run_Errors run <> [] /\ 0 < run_Collected run) /\
  (run_Status run = "completed" \/ run_Status run = "failed"
     \/ run_Status run = "partial") /\
  run_Collected run = len (run_Values run).
Proof.
  intros run. split; [ apply executeCollection_stored |].
  assert (Hst : run_Status run = derive_status run
                /\ run_Collected run = len (run_Values run)).
  { subst run. unfold executeCollection, Now.
    destruct (fold_left _ _ _) as [r w2]. cbn. split; reflexivity. }
  destruct Hst as [Hst Hcol]. rewrite Hst, derive_status_cases.
  pose proof (Zle_0_nat (length (run_Values run))) as Hnn.
  fold (len (run_Values run)) in Hnn. rewrite <- Hcol in Hnn.
  destruct (run_Errors run) as [| e es].
  - intuition (try discriminate; try congruence).
  - destruct (run_Collected run =? 0) eqn:E;
      [ apply Z.eqb_eq in E | apply Z.eqb_neq in E ];
      intuition (try discriminate; try congruence; try lia).
Qed.

(** *** The scan, as the list of its fetches *)

Lemma run_extend_nil run : run_extend run [] [] = run.
Proof. destruct run. unfold run_extend. cbn. by rewrite !app_nil_r. Qed.

Lemma run_extend_extend run e1 v1 e2 v2 :
  run_extend (run_extend run e1 v1) e2 v2
  = run_extend run (e1 ++ e2)%list (v1 ++ v2)%list.
Proof. unfold run_extend. cbn. by rewrite !app_assoc. Qed.

Lemma run_addError_extend run msg : run_addError run msg = run_extend run [msg] [].
Proof. unfold run_addError, run_extend. by rewrite app_nil_r. Qed.

Lemma run_addValue_extend run v : run_addValue run v = run_extend run [] [v].
Proof. unfold run_addValue, run_extend. by rewrite app_nil_r. Qed.

Lemma add_values_extend now res reg (values : list wbDataPoint) run :
  fold_left (fun run v => run_addValue run (mkValue now res reg v)) values run
  = run_extend run [] (map (mkValue now res reg) values).
Proof.
  revert run. induction values as [| v values IH]; intros run; cbn [fold_left map].
  - symmetry. apply run_extend_nil.
  - by rewrite IH, run_addValue_extend, run_extend_extend.
Qed.

Lemma fetches_app yr p1 p2 w :
  fetches yr (p1 ++ p2)%list w =
    let '(l1, w1) := fetches yr p1 w in
    let '(l2, w2) := fetches yr p2 w1 in
    ((l1 ++ l2)%list, w2).
Proof.
  revert w. induction p1 as [| [res reg] p1 IH]; intros w; cbn [fetches app].
  - by destruct (fetches yr p2 w).
  - destruct (fetchWorldBankData _ _ yr w) as [r w1]. rewrite IH.
    destruct (fetches yr p1 w1) as [l1 w2].
    by destruct (fetches yr p2 w2).
Qed.

Lemma fetches_pairs yr pairs w : map fst (fst (fetches yr pairs w)) = pairs.
Proof.
  revert w. induction pairs as [| [res reg] rest IH]; intros w; cbn [fetches].
  - reflexivity.
  - destruct (fetchWorldBankData _ _ yr w) as [r w1].
    specialize (IH w1). destruct (fetches yr rest w1) as [log w2].
    cbn in *. by rewrite IH.
Qed.

Lemma scan_regions yr now res regs run w :
  fold_left (scan_region yr now res) regs (run, w) =
    let '(log, w1) := fetches yr (map (pair res) regs) w in
    (run_extend run (omap error_line log) (flat_map (outcome_values now) log), w1).
Proof.
  revert run w. induction regs as [| reg regs IH]; intros run w;
    cbn [fold_left map fetches].
  - cbn. by rewrite run_extend_nil.
  - unfold scan_region at 2.
    destruct (fetchWorldBankData _ _ yr w) as [[err | values] w1];
      [ rewrite run_addError_extend | rewrite add_values_extend ]; rewrite IH;
      destruct (fetches yr (map (pair res) regs) w1) as [log w2];
      rewrite run_extend_extend; reflexivity.
Qed.

Lemma scan_resources yr now targets run w :
  fold_left (scan_resource yr now) targets (run, w) =
    let '(log, w1) := fetches yr (list_prod targets regions) w in
    (run_extend run (omap error_line log) (flat_map (outcome_values now) log), w1).
Proof.
  revert run w. induction targets as [| res targets IH]; intros run w;
    cbn [fold_left list_prod].
  - cbn. by rewrite run_extend_nil.
  - unfold scan_resource at 2. rewrite scan_regions, fetches_app.
    destruct (fetches yr (map _ regions) w) as [l1 w1]. rewrite IH.
    destruct (fetches yr (list_prod targets regions) w1) as [l2 w2].
    rewrite run_extend_extend, omap_app, flat_map_app. reflexivity.
Qed.

(** [executeCollection] in closed form. *)
Lemma executeCollection_unfold filterIDs yr w :
  executeCollection filterIDs yr w =
    let now := time_Now (ticks w) in
    let targets := targetResources filterIDs in
    let '(log, w2) := fetches yr (list_prod targets regions) (snd (Now w)) in
    let fin := time_Now (ticks w2) in
    let errs := omap error_line log in
    let vals := flat_map (outcome_values now) log in
    let run0 :=
      {| run_ID := "run-" +:+ pretty (UnixNano now);
         run_StartedAt := RFC3339 now;
         run_FinishedAt := RFC3339 fin;
         run_Status := "running";
         run_Resources := len targets;
         run_Collected := len vals;
         run_Errors := errs;
         run_Values := vals |} in
    let run :=
      {| run_ID := run_ID run0; run_StartedAt := run_StartedAt run0;
         run_FinishedAt := run_FinishedAt run0; run_Status := derive_status run0;
         run_Resources := run_Resources run0; run_Collected := run_Collected run0;
         run_Errors := run_Errors run0; run_Values := run_Values run0 |} in
    let rs := (runs w2 ++ [run])%list in
    (run,
     {| runs := if 50 <? len rs then drop (length rs - 50)%nat rs else rs;
        ticks := S (ticks w2); sent := sent w2 |}).
Proof.
  unfold executeCollection, Now. rewrite scan_resources. cbn [snd].
  destruct (fetches _ _ _) as [log w2]. reflexivity.
Qed.

(** C2. Every (resource, region) pair of the scan is fetched, in order,
    whatever the earlier fetches did.  A failed fetch leaves the line
    "<resourceId>/<regionCode>: <detail>" in the error list of the run and
    nothing else; a successful fetch leaves one value per returned point,
    carrying the id and unit of the resource, the code and name of the
    region, the year and value of the point, the source label and the
    timestamp taken when the run started.  [executeCollection] has no error
    result: whatever the fetches do, it returns the run. *)
Theorem scan_recovers_fetch_failures filterIDs yr w :
  let now := time_Now (ticks w) in
  let pairs := list_prod (targetResources filterIDs) regions in
  let log := fst (fetches yr pairs (snd (Now w))) in
  let run := fst (executeCollection filterIDs yr w) in
  map fst log = pairs /\
  run_Errors run = omap error_line log /\
  run_Values run = flat_map (outcome_values now) log /\
  (forall res reg err, (res, reg, inl err) ∈ log ->
     rd_ID res +:+ "/" +:+ reg_Code reg +:+ ": " +:+ fetchErr_Error err
       ∈ run_Errors run) /\
  (forall res reg points p, (res, reg, inr points) ∈ log -> p ∈ points ->
     {| cv_ResourceID := rd_ID res;
        cv_Region := reg_Code reg;
        cv_RegionName := reg_Name reg;
        cv_Year := year p;
        cv_Value := value p;
        cv_Unit := rd_Unit res;
        cv_Source := "World Bank API";
        cv_FetchedAt := run_StartedAt run |} ∈ run_Values run).
Proof.
  intros now pairs log run.
  assert (Hrun : run_Errors run = omap error_line log
                 /\ run_Values run = flat_map (outcome_values now) log
                 /\ run_StartedAt run = RFC3339 now).
  { subst run log pairs now. rewrite executeCollection_unfold. cbv zeta.
    destruct (fetches _ _ _) as [log w2]. cbn. auto. }
  destruct Hrun as (Herr & Hval & Hnow).
  split; [ apply fetches_pairs |]. split; [ exact Herr |]. split; [ exact Hval |].
  split.
  - intros res reg err Hin. rewrite Herr. apply list_elem_of_omap.
    exists (res, reg, inl err). split; [ exact Hin | reflexivity ].
  - intros res reg points p Hin Hp. rewrite Hval, Hnow.
    apply list_elem_of_In, in_flat_map. exists (res, reg, inr points).
    split; [ by apply list_elem_of_In |]. cbn.
    apply in_map_iff. exists p. split; [ reflexivity | by apply list_elem_of_In ].
Qed.

(** *** Target resources *)

Lemma idSet_lookup (ids : list string) (m : gmap string bool) (k : string) :
  fold_left (fun m id => <[id := true]> m) ids m !! k
  = if bool_decide (k ∈ ids) then Some true else m !! k.
Proof.
  revert m. induction ids as [| id ids IH]; intros m; cbn [fold_left].
  - rewrite bool_decide_eq_false_2; [ reflexivity | apply not_elem_of_nil ].
  - rewrite IH. destruct (bool_decide (k ∈ ids)) eqn:E.
    + apply bool_decide_eq_true_1 in E.
      rewrite bool_decide_eq_true_2; [ reflexivity |].
      apply elem_of_cons. by right.
    + apply bool_decide_eq_false_1 in E.
      destruct (decide (k = id)) as [-> | Hne].
      * rewrite lookup_insert_eq, bool_decide_eq_true_2; [ reflexivity |].
        apply elem_of_cons. by left.
      * rewrite lookup_insert_ne by congruence.
        rewrite bool_decide_eq_false_2; [ reflexivity |].
        intros Hin. apply elem_of_cons in Hin. tauto.
Qed.

Lemma filter_sublist {A} (f : A -> bool) (l : list A) : sublist (List.filter f l) l.
Proof.
  induction l as [| x l IH]; cbn.
  - constructor.
  - destruct (f x); by constructor.
Qed.

(** C3, as the code has it.  A non-empty filter keeps the catalog entries
    whose id it lists, in catalog order; an empty filter (the form in which
    an absent one arrives) selects the whole catalog; the run records the
    number of resources resolved. *)
Theorem target_resources_resolved filterIDs yr w :
  targetResources filterIDs =
    match filterIDs with
    | [] => catalog
    | _ :: _ => List.filter (fun r => bool_decide (rd_ID r ∈ filterIDs)) catalog
    end /\
  sublist (targetResources filterIDs) catalog /\
  run_Resources (fst (executeCollection filterIDs yr w))
  = len (targetResources filterIDs).
Proof.
  assert (Heq : targetResources filterIDs =
    match filterIDs with
    | [] => catalog
    | _ :: _ => List.filter (fun r => bool_decide (rd_ID r ∈ filterIDs)) catalog
    end).
  { unfold targetResources. destruct filterIDs as [| id ids]; [ reflexivity |].
    pose proof (len_pos_cons id ids) as Hpos. apply Z.ltb_lt in Hpos.
    rewrite Hpos. apply filter_ext. intros r.
    rewrite idSet_lookup, lookup_empty.
    by destruct (bool_decide _). }
  split; [ exact Heq |]. split.
  - rewrite Heq. destruct filterIDs; [ reflexivity | apply filter_sublist ].
  - rewrite executeCollection_unfold. cbv zeta.
    destruct (fetches _ _ _) as [log w2]. reflexivity.
Qed.

(** *** Run history *)

Lemma client_Get_runs url w : runs (snd (client_Get url w)) = runs w.
Proof. unfold client_Get. by destruct (http_NewRequest _ _ _). Qed.

Lemma fetchWorldBankData_runs ind cc yr w :
  runs (snd (fetchWorldBankData ind cc yr w)) = runs w.
Proof.
  unfold fetchWorldBankData.
  pose proof (client_Get_runs (fetch_url ind cc yr) w) as H.
  destruct (client_Get _ w) as [[err | resp] w1]; exact H.
Qed.

Lemma fetches_runs yr pairs w : runs (snd (fetches yr pairs w)) = runs w.
Proof.
  revert w. induction pairs as [| [res reg] rest IH]; intros w; cbn [fetches].
  - reflexivity.
  - pose proof (fetchWorldBankData_runs (rd_Indicator res) (reg_Code reg) yr w) as H.
    destruct (fetchWorldBankData _ _ yr w) as [r w1].
    specialize (IH w1). destruct (fetches yr rest w1) as [log w2].
    cbn in *. congruence.
Qed.

(** What an append does to the history: the new run goes last and, beyond
    fifty entries, the front is cut. *)
Lemma executeCollection_runs filterIDs yr w :
  runs (snd (executeCollection filterIDs yr w)) =
    let rs := (runs w ++ [fst (executeCollection filterIDs yr w)])%list in
    if 50 <? len rs then drop (length rs - 50)%nat rs else rs.
Proof.
  rewrite executeCollection_unfold. cbv zeta.
  pose proof (fetches_runs yr (list_prod (targetResources filterIDs) regions)
                (snd (Now w))) as H.
  destruct (fetches _ _ _) as [log w2]. cbn [fst snd runs] in *.
  rewrite H. reflexivity.
Qed.

Lemma callExternalMCPTool_runs url tool args w :
  runs (snd (callExternalMCPTool url tool args w)) = runs w.
Proof.
  unfold callExternalMCPTool, Now, client_Do.
  destruct (http_NewRequest _ _ _) as [err | req]; [ reflexivity |].
  destruct (http_RoundTrip _ _) as [err | resp]; [ reflexivity |].
  destruct (_ || _); [ reflexivity |].
  destruct (Unmarshal_map _) as [err | parsed]; [ reflexivity |].
  destruct (parsed !! "error") as [[]|]; try reflexivity;
    destruct (parsed !! "result") as [[]|]; reflexivity.
Qed.

Lemma publishToMCP_runs url w : runs (snd (publishToMCP url w)) = runs w.
Proof.
  unfold publishToMCP. destruct (last (runs w)) as [latest |]; [| reflexivity ].
  destruct (_ =? 0); [ reflexivity |].
  pose proof (callExternalMCPTool_runs url "global.list_resources" ∅ w) as H.
  destruct (callExternalMCPTool _ _ _ w) as [[err | result] w1]; exact H.
Qed.

(** Only [collector.run] writes the history. *)
Lemma callTool_runs name args w :
  runs (snd (callTool name args w)) = runs w \/
  exists filterIDs yr,
    runs (snd (callTool name args w)) = runs (snd (executeCollection filterIDs yr w)).
Proof.
  unfold callTool.
  destruct (Str.eqb name "collector.run").
  { right. exists (toStringSlice (index args "resource_ids")), (toInt (index args "year")).
    by destruct (executeCollection _ _ w). }
  left.
  repeat (match goal with
          | |- context [if Str.eqb name ?s then _ else _] =>
              destruct (Str.eqb name s)
          end; try reflexivity).
  - by destruct (get_target _ w).
  - apply publishToMCP_runs.
Qed.

Lemma append_bound filterIDs yr w :
  (length (runs w) <= 50)%nat ->
  (length (runs (snd (executeCollection filterIDs yr w))) <= 50)%nat.
Proof.
  intros Hw. rewrite executeCollection_runs. cbv zeta.
  destruct (50 <? _) eqn:E.
  - rewrite length_drop, length_app. simpl. lia.
  - apply Z.ltb_ge in E. unfold len in E. lia.
Qed.

Lemma handle_bound w rq :
  (length (runs w) <= 50)%nat -> (length (runs (handle w rq)) <= 50)%nat.
Proof.
  intros Hw. destruct rq as [| name args]; cbn [handle].
  - by apply append_bound.
  - destruct (callTool_runs name args w) as [-> | (f & y & ->)];
      [ exact Hw | by apply append_bound ].
Qed.

Lemma reachable_bound w : reachable w -> (length (runs w) <= 50)%nat.
Proof.
  intros [rqs ->]. induction rqs as [| rq rqs IH] using rev_ind.
  - cbn. lia.
  - rewrite fold_left_app. cbn [fold_left]. by apply handle_bound.
Qed.

(** The history only ever holds runs that [executeCollection] returned. *)
Lemma handle_runs_Forall (P : collectionRun -> Prop) w rq :
  (forall filterIDs yr w0, P (fst (executeCollection filterIDs yr w0))) ->
  Forall P (runs w) -> Forall P (runs (handle w rq)).
Proof.
  intros HP Hw.
  assert (Happend : forall f y,
             Forall P (runs (snd (executeCollection f y w)))).
  { intros f y. rewrite executeCollection_runs. cbv zeta.
    assert (Hall : Forall P (runs w ++ [fst (executeCollection f y w)])%list).
    { apply Forall_app. split; [ exact Hw | by repeat constructor ]. }
    destruct (50 <? _); [ by apply Forall_drop | exact Hall ]. }
  destruct rq as [| name args]; cbn [handle].
  - apply Happend.
  - destruct (callTool_runs name args w) as [-> | (f & y & ->)];
      [ exact Hw | apply Happend ].
Qed.

Lemma reachable_runs_Forall (P : collectionRun -> Prop) w :
  (forall filterIDs yr w0, P (fst (executeCollection filterIDs yr w0))) ->
  reachable w -> Forall P (runs w).
Proof.
  intros HP [rqs ->]. induction rqs as [| rq rqs IH] using rev_ind.
  - constructor.
  - rewrite fold_left_app. cbn [fold_left]. by apply handle_runs_Forall.
Qed.

(** So every run a reader can see is terminal, with the derived status and
    the count of its values. *)
Lemma stored_runs_derived w :
  reachable w ->
  Forall (fun r => run_Status r = derive_status r
                   /\ run_Collected r = len (run_Values r)) (runs w).
Proof.
  apply reachable_runs_Forall. intros f y w0.
  rewrite executeCollection_unfold. cbv zeta.
  destruct (fetches _ _ _) as [log w2]. cbn. auto.
Qed.

Lemma reachable_step w rq : reachable w -> reachable (handle w rq).
Proof.
  intros [rqs ->]. exists (rqs ++ [rq])%list. by rewrite fold_left_app.
Qed.

(** C4. In every world the service can reach the history holds at most
    fifty runs, and it still does after a further append.  An append puts
    the new run last and keeps the last fifty of the result: the stored
    runs are a suffix of the old history followed by the new run, so what
    is dropped is dropped from the front (oldest first, at most one run
    per append) and the order of the survivors is unchanged. *)
Theorem history_store_bounded filterIDs yr w :
  reachable w ->
  let run := fst (executeCollection filterIDs yr w) in
  let w1 := snd (executeCollection filterIDs yr w) in
  (length (runs w) <= 50)%nat /\
  (length (runs w1) <= 50)%nat /\
  runs w1 = drop (length (runs w) + 1 - 50)%nat (runs w ++ [run])%list /\
  (exists evicted,
     (runs w ++ [run])%list = (evicted ++ runs w1)%list /\
     evicted = take (length (runs w) + 1 - 50)%nat (runs w) /\
     (length evicted <= 1)%nat) /\
  last (runs w1) = Some run.
Proof.
  intros Hreach run w1. pose proof (reachable_bound w Hreach) as Hw.
  assert (Hruns : runs w1 = drop (length (runs w) + 1 - 50)%nat (runs w ++ [run])%list).
  { subst w1 run. rewrite executeCollection_runs. cbv zeta.
    rewrite length_app. cbn [length].
    destruct (50 <? _) eqn:E; [ reflexivity |].
    apply Z.ltb_ge in E. unfold len in E. rewrite length_app in E. cbn in E.
    replace (length (runs w) + 1 - 50)%nat with 0%nat by lia. reflexivity. }
  split; [ exact Hw |]. split; [ by apply append_bound |].
  split; [ exact Hruns |]. split.
  - exists (take (length (runs w) + 1 - 50)%nat (runs w)).
    split; [| split; [ reflexivity | rewrite length_take; lia ] ].
    rewrite Hruns.
    rewrite <- (take_drop (length (runs w) + 1 - 50)%nat (runs w ++ [run])%list) at 1.
    f_equal. apply take_app_le. lia.
  - apply executeCollection_stored.
Qed.

(** *** Dispatcher: run summaries *)

(** Decides the comparisons of the tool name against the literals. *)
Ltac dispatch :=
  unfold callTool;
  repeat match goal with
         | |- context [Str.eqb ?a ?b] =>
             let v := eval vm_compute in (Str.eqb a b) in
             match v with
             | true => change (Str.eqb a b) with true
             | false => change (Str.eqb a b) with false
             end
         end;
  cbv iota.





(** *** JSON-LD export *)

Lemma last_None_nil {A} (l : list A) : last l = None <-> l = [].
Proof. apply last_None. Qed.

Lemma exported_spec resourceID v :
  exported resourceID v
  = bool_decide (resourceID = "" \/ cv_ResourceID v = resourceID).
Proof.
  unfold exported, Str.eqb.
  destruct (decide (resourceID = "")) as [H1 | H1];
    destruct (decide (cv_ResourceID v = resourceID)) as [H2 | H2];
    repeat first [ rewrite (bool_decide_eq_true_2 _ H1)
                 | rewrite (bool_decide_eq_true_2 _ H2)
                 | rewrite (bool_decide_eq_false_2 _ H1)
                 | rewrite (bool_decide_eq_false_2 _ H2) ];
    cbn; symmetry;
    first [ apply bool_decide_eq_true_2; tauto
          | apply bool_decide_eq_false_2; tauto ].
Qed.

(** C9. On an empty history the export fails with its empty-state error.
    Otherwise it reads the last run of the history: the values it keeps
    are all of them when no resource id is given and those of that
    resource otherwise; each kept value yields one node, in order, whose
    identifier is the resource id, the lower-cased region code and the
    year under the content prefix; the envelope is a Dataset whose
    dateCreated is the finish time of the run and whose count is the
    number of nodes. *)
Theorem export_jsonld_shape resourceID w :
  (runs w = [] <-> last (runs w) = None) /\
  match last (runs w) with
  | None =>
      exportJSONLD resourceID w
      = inl "no collection runs available; call collector.run first"
  | Some latest =>
      let kept :=
        List.filter
          (fun v => bool_decide (resourceID = "" \/ cv_ResourceID v = resourceID))
          (run_Values latest) in
      exists (m : gmap string any) (graph : list jsonldResource),
        exportJSONLD resourceID w = inr (AMap m) /\
        m !! "@type" = Some (AString "Dataset") /\
        m !! "@graph" = Some (AGraph graph) /\
        m !! "dateCreated" = Some (AString (run_FinishedAt latest)) /\
        m !! "count" = Some (AInt (len graph)) /\
        Forall2
          (fun v n =>
             ld_ID n = "https://resources.gftd.ai/content/resource/"
                         +:+ cv_ResourceID v +:+ "/" +:+ ToLower (cv_Region v)
                         +:+ "/" +:+ pretty (cv_Year v))
          kept graph
  end.
Proof.
  split; [ symmetry; apply last_None_nil |].
  unfold exportJSONLD. destruct (last (runs w)) as [latest |]; [| reflexivity ].
  eexists _, _. do 5 (split; [ reflexivity |]).
  rewrite (filter_ext _ _ (exported_spec resourceID)).
  induction (List.filter _ (run_Values latest)) as [| v l IH]; cbn [map].
  - constructor.
  - constructor; [ reflexivity | exact IH ].
Qed.

(** *** Dispatcher: collected values *)

Lemma find_no_match (runID : string) (rs : list collectionRun) :
  Forall (fun r => run_ID r <> runID) rs ->
  List.find (fun r => Str.eqb (run_ID r) runID) rs = None.
Proof.
  unfold Str.eqb. induction 1 as [| r rs Hr _ IH]; simpl.
  - reflexivity.
  - by rewrite bool_decide_eq_false_2.
Qed.

Lemma get_target_latest w : get_target "" w = last (runs w).
Proof.
  unfold get_target. change (Str.eqb "" "") with true. cbn [negb].
  destruct (runs w) as [| r rs]; [ reflexivity |].
  pose proof (len_pos_cons r rs) as Hpos. apply Z.ltb_lt in Hpos. by rewrite Hpos.
Qed.

(** C10, as the code has it.  The run id is the [run_id] argument with the
    white space around it cut, and empty when the argument is absent or not
    a string.  When it is not empty and no stored run has it, the call
    fails with "no collection runs found", whatever the history holds; when
    it is not empty, an answer is never about a run with another id.  When
    it is empty the last run of the history is read, and the same error is
    returned only on an empty history. *)
Theorem get_collected_run_selection args w :
  let runID := strVal (index args "run_id") in
  let out := fst (callTool "collector.get_collected" args w) in
  (runID <> "" -> Forall (fun r => run_ID r <> runID) (runs w) ->
     out = inl "no collection runs found") /\
  (runID <> "" -> forall m, out = inr (AMap m) ->
     m !! "run_id" = Some (AString runID)) /\
  (runID = "" ->
     match last (runs w) with
     | None => out = inl "no collection runs found"
     | Some latest =>
         exists m, out = inr (AMap m)
                   /\ m !! "run_id" = Some (AString (run_ID latest))
     end).
Proof.
  intros runID out.
  assert (Hout : out =
    match get_target runID w with
    | None => inl "no collection runs found"
    | Some target =>
        let values := run_Values target in
        let values :=
          if negb (Str.eqb (strVal (index args "resource_id")) "") then
            List.filter
              (fun v => Str.eqb (cv_ResourceID v) (strVal (index args "resource_id")))
              values
          else values in
        inr (AMap {[ "run_id" := AString (run_ID target);
                     "values" := AValues values;
                     "count" := AInt (len values) ]})
    end).
  { subst out. dispatch. fold runID. by destruct (get_target runID w). }
  split; [| split ].
  - intros Hne Hall. rewrite Hout. unfold get_target, Str.eqb at 1.
    rewrite bool_decide_eq_false_2 by exact Hne. cbn [negb].
    by rewrite find_no_match.
  - intros Hne m. rewrite Hout. unfold get_target, Str.eqb at 1.
    rewrite bool_decide_eq_false_2 by exact Hne. cbn [negb].
    destruct (List.find _ (runs w)) as [target |] eqn:Hfind; [| discriminate ].
    apply find_some in Hfind. destruct Hfind as [_ Hid].
    apply bool_decide_eq_true_1 in Hid.
    intros Hm. injection Hm as <-. rewrite Hid. reflexivity.
  - intros Hempty. rewrite Hout, Hempty, get_target_latest.
    destruct (last (runs w)) as [latest |]; [| reflexivity ].
    eexists. split; [ reflexivity | reflexivity ].
Qed.

(** *** Publish relay *)

(** The requests a remote tool call hands to the HTTP client: one, or none
    when no request can be made of the URL. *)
Lemma callExternalMCPTool_sent url tool args w :
  exists reqs,
    sent (snd (callExternalMCPTool url tool args w)) = (sent w ++ reqs)%list /\
    length reqs = (if url_accepted url then 1 else 0)%nat /\
    Forall (fun rq => req_Method rq = "POST" /\ req_URL rq = url) reqs.
Proof.
  unfold callExternalMCPTool, url_accepted, http_NewRequest, Now, client_Do.
  cbv zeta. destruct (Str.containsCTLByte _).
  { exists []. cbn. by rewrite app_nil_r. }
  destruct (url_syntax_err url).
  { exists []. cbn. by rewrite app_nil_r. }
  eexists (_ :: nil). split.
  { destruct (http_RoundTrip _ _) as [err | resp]; [ reflexivity |].
    destruct (_ || _); [ reflexivity |].
    destruct (Unmarshal_map _) as [err | parsed]; [ reflexivity |].
    destruct (parsed !! "error") as [[]|]; try reflexivity;
      destruct (parsed !! "result") as [[]|]; reflexivity. }
  split; [ reflexivity |]. by repeat constructor.
Qed.

(** C5, as the code has it.  On an empty history publish fails with its
    empty-state error and leaves the world alone.  When the last run holds
    no value the answer is the "skipped" result and the world is unchanged:
    nothing is sent.  When it holds values the remote tool is called once;
    this hands one POST for the target URL to the HTTP client, or none when
    no request can be made of that URL.  If the call fails, for whatever
    reason, publish still answers with a result, status "error", whose
    detail is the message of the failure; if it succeeds the result is
    "published" and carries the response. *)
Theorem publish_outcomes targetURL w :
  match last (runs w) with
  | None =>
      publishToMCP targetURL w
      = (inl "no collection runs; call collector.run first", w)
  | Some latest =>
      match run_Values latest with
      | [] =>
          publishToMCP targetURL w
          = (inr (AMap {[ "status" := AString "skipped";
                          "reason" := AString "no values to publish" ]}), w)
      | _ :: _ =>
          let call := callExternalMCPTool targetURL "global.list_resources" ∅ w in
          exists (m : gmap string any) (reqs : list Request),
            publishToMCP targetURL w = (inr (AMap m), snd call) /\
            match fst call with
            | inl err => m = {[ "status" := AString "error"; "detail" := AString err ]}
            | inr result =>
                m !! "status" = Some (AString "published") /\
                m !! "target_response" = Some (AMap result)
            end /\
            sent (snd call) = (sent w ++ reqs)%list /\
            length reqs = (if url_accepted targetURL then 1 else 0)%nat /\
            Forall (fun rq => req_Method rq = "POST" /\ req_URL rq = targetURL) reqs
      end
  end.
Proof.
  unfold publishToMCP. destruct (last (runs w)) as [latest |]; [| reflexivity ].
  destruct (run_Values latest) as [| v vs] eqn:Hv; [ reflexivity |].
  pose proof (len_pos_cons v vs) as Hpos.
  destruct (len (v :: vs) =? 0) eqn:E; [ apply Z.eqb_eq in E; lia |].
  cbv zeta.
  destruct (callExternalMCPTool_sent targetURL "global.list_resources" ∅ w)
    as (reqs & Hsent & Hlen & Hall).
  destruct (callExternalMCPTool _ _ _ w) as [[err | result] w1];
    eexists _, reqs; (split; [ reflexivity |]); cbn [fst snd] in *; auto.
Qed.

(** *** The sort *)

Section Sorting.
Context {A : Type} (key : A -> Z).

Let less (x y : A) : bool := key y <? key x.







End Sorting.

(** *** The client: entries *)

Lemma client_Get_fetch ind cc yr w :
  fst (fetchWorldBankData ind cc yr w) =
    match fst (client_Get (fetch_url ind cc yr) w) with
    | inl err => inl (ErrHttp err)
    | inr resp => decode_response resp
    end.
Proof.
  unfold fetchWorldBankData.
  by destruct (client_Get _ w) as [[err | resp] w1].
Qed.

Lemma status_in_2xx code :
  200 <= code <= 299 -> (code <? 200) || (299 <? code) = false.
Proof. intros H. apply orb_false_iff. split; apply Z.ltb_ge; lia. Qed.

Lemma status_outside_2xx code :
  ~ 200 <= code <= 299 -> (code <? 200) || (299 <? code) = true.
Proof.
  intros H. apply orb_true_iff.
  destruct (Z.ltb_spec code 200); [ by left | right; apply Z.ltb_lt; lia ].
Qed.



(** *** The client: failures *)

Lemma decode_member_ok e kv : is_inr (decode_member e kv) = member_ok kv.
Proof.
  destruct kv as [k v]. unfold decode_member, member_ok.
  destruct (field_is "date" k); [ by destruct v |].
  destruct (field_is "value" k); [| reflexivity ].
  destruct v; try reflexivity. by destruct (ParseFloat lit).
Qed.

Lemma decode_members_ok members e :
  is_inr (decode_members e members) = forallb member_ok members.
Proof.
  revert e. induction members as [| kv members IH]; intros e; cbn [decode_members forallb].
  - reflexivity.
  - rewrite <- (decode_member_ok e kv).
    destruct (decode_member e kv) as [err | e1]; cbn; [ reflexivity | apply IH ].
Qed.

Lemma decode_entry_ok j : is_inr (decode_entry j) = entry_ok j.
Proof. destruct j; try reflexivity. apply decode_members_ok. Qed.

Lemma emapM_ok {E A B} (f : A -> E + B) (l : list A) :
  is_inr (emapM f l) = forallb (fun x => is_inr (f x)) l.
Proof.
  induction l as [| x l IH]; cbn [emapM forallb]; [ reflexivity |].
  destruct (f x) as [err | y]; cbn; [ reflexivity |].
  rewrite <- IH. by destruct (emapM f l).
Qed.

Lemma forallb_pointwise {A} (f g : A -> bool) (l : list A) :
  (forall x, f x = g x) -> forallb f l = forallb g l.
Proof. intros H. induction l as [| x l IH]; cbn; [ reflexivity | by rewrite H, IH ]. Qed.

Lemma Unmarshal_entries_ok j : is_inr (Unmarshal_entries j) = entries_ok j.
Proof.
  destruct j; try reflexivity. cbn [Unmarshal_entries entries_ok].
  rewrite emapM_ok. apply forallb_pointwise. intros x. apply decode_entry_ok.
Qed.

(** With a 2xx status the client succeeds on the accepted bodies and fails
    with a parse error on all others. *)
Lemma decode_response_2xx resp :
  200 <= StatusCode resp <= 299 ->
  if envelope_ok (Str.take_bytes (512 * 1024) (resp_Body resp))
  then exists points, decode_response resp = inr points
  else exists e, decode_response resp = inl e /\ fetchErr_class e = ParseError.
Proof.
  intros Hst. unfold decode_response, envelope_ok, Unmarshal_raw.
  rewrite (status_in_2xx _ Hst).
  destruct (json_scan _) as [err | j]; cbn [ebind]; [ by eexists |].
  destruct j as [| b | lit | s | elems | members]; try by eexists.
  destruct elems as [| m [| e rest]]; try by eexists.
  change (len (m :: e :: rest) <? 2) with (Z.of_nat (S (S (length rest))) <? 2).
  destruct (Z.ltb_spec (Z.of_nat (S (S (length rest)))) 2) as [Hlt | _]; [ lia |].
  change (default JNull ((m :: e :: rest) !! 1%nat)) with e.
  rewrite <- Unmarshal_entries_ok.
  destruct (Unmarshal_entries e) as [err | entries]; cbn [is_inr];
    eexists; [ split |]; reflexivity.
Qed.

Lemma decode_response_not_2xx resp :
  ~ 200 <= StatusCode resp <= 299 ->
  decode_response resp = inl (ErrStatus (StatusCode resp)).
Proof. intros H. unfold decode_response. by rewrite (status_outside_2xx _ H). Qed.

Ltac break_hyps :=
  repeat match goal with
         | H : exists _, _ |- _ => destruct H as [? H]
         | H : _ /\ _ |- _ => destruct H as [? ?]
         end.

Ltac classes :=
  repeat split; intros H; break_hyps; simplify_eq;
  try discriminate; try congruence; try tauto; eauto 6.

(** C7, as the code has it.  The outcome of a fetch falls in exactly one of
    four cases.  It is a transport error exactly when the HTTP client
    returned an error; a protocol error exactly when a response arrived with
    a status outside 200..299, whatever its body; a parse error exactly when
    a response arrived with a 2xx status and its body (cut at 512 KiB) is not
    a JSON array of at least two elements whose second element decodes as
    the entries; and a list of points in the remaining case.  Elements after
    the second are not looked at. *)
Theorem fetch_failure_classes ind cc yr w :
  let got := fst (client_Get (fetch_url ind cc yr) w) in
  let out := fst (fetchWorldBankData ind cc yr w) in
  let body resp := Str.take_bytes (512 * 1024) (resp_Body resp) in
  ((exists e, out = inl e /\ fetchErr_class e = TransportError)
   <-> exists err, got = inl err) /\
  ((exists e, out = inl e /\ fetchErr_class e = ProtocolError)
   <-> exists resp, got = inr resp /\ ~ 200 <= StatusCode resp <= 299) /\
  ((exists e, out = inl e /\ fetchErr_class e = ParseError)
   <-> exists resp, got = inr resp /\ 200 <= StatusCode resp <= 299
                    /\ envelope_ok (body resp) = false) /\
  ((exists points, out = inr points)
   <-> exists resp, got = inr resp /\ 200 <= StatusCode resp <= 299
                    /\ envelope_ok (body resp) = true).
Proof.
  intros got out body. subst out. rewrite client_Get_fetch. fold got.
  destruct got as [err | resp].
  { classes. }
  destruct (decide (200 <= StatusCode resp <= 299)) as [Hst | Hst].
  - pose proof (decode_response_2xx resp Hst) as H. fold (body resp) in H.
    destruct (envelope_ok (body resp)) eqn:Henv; cbv iota in H.
    + destruct H as (points & ->).
      classes.
    + destruct H as (e & -> & Hc).
      classes.
  - rewrite (decode_response_not_2xx resp Hst).
    classes.
Qed.

End Collector.

Arguments runs {float64} w.
Arguments ticks {float64} w.
Arguments sent {float64} w.
Arguments world0 {float64}.
Arguments run_ID {float64} c.
Arguments run_StartedAt {float64} c.
Arguments run_FinishedAt {float64} c.
Arguments run_Status {float64} c.
Arguments run_Resources {float64} c.
Arguments run_Collected {float64} c.
Arguments run_Errors {float64} c.
Arguments run_Values {float64} c.
Arguments cv_ResourceID {float64} c.
Arguments cv_Year {float64} c.
Arguments cv_Value {float64} c.
Arguments year {float64} w.
Arguments value {float64} w.
Arguments e_Date {float64} e.
Arguments e_Value {float64} e.
Arguments req_Method {float64} r.
Arguments req_URL {float64} r.
Arguments req_Body {float64} r.
Arguments ANil {float64}.
Arguments ABool {float64} b.
Arguments AInt {float64} n.
Arguments AString {float64} s.
Arguments AMap {float64} m.
Arguments ASlice {float64} l.

(** ** A concrete platform

    A small world on which the model runs: integers for the doubles, a
    scanner that knows a handful of documents, a clock that ticks in seconds
    and a network in which three countries answer. *)

Module Demo.

Definition float64 : Type := Z.

Definition float64_to_int (f : float64) : Z := f.

(** Integer literals only. *)
Definition ParseFloat (lit : string) : option float64 :=
  match lit with
  | EmptyString => None
  | _ =>
      let l := list_ascii_of_string lit in
      if forallb Str.is_digit l then Some (Str.digits_value l) else None
  end.

Definition intBits : Z := 64.

Definition quote : string := String "034" EmptyString.

Definition q (s : string) : string := quote +:+ s +:+ quote.

(** [[{},[{"date":"2021","value":7}]]] *)
Definition doc_one : string :=
  "[{},[{" +:+ q "date" +:+ ":" +:+ q "2021" +:+ "," +:+ q "value" +:+ ":7}]]".

(** [[{},[{"date":"2020","value":null},{"date":"n/a","value":3},
         {"date":"2019","value":5},{"date":"2021","value":7},{"date":"2018"}]]] *)
Definition doc_mixed : string :=
  "[{},[{" +:+ q "date" +:+ ":" +:+ q "2020" +:+ "," +:+ q "value" +:+ ":null},{"
    +:+ q "date" +:+ ":" +:+ q "n/a" +:+ "," +:+ q "value" +:+ ":3},{"
    +:+ q "date" +:+ ":" +:+ q "2019" +:+ "," +:+ q "value" +:+ ":5},{"
    +:+ q "date" +:+ ":" +:+ q "2021" +:+ "," +:+ q "value" +:+ ":7},{"
    +:+ q "date" +:+ ":" +:+ q "2018" +:+ "}]]".

Definition doc_three : string := "[{},[],null]".

(** [{"result":{}}] *)
Definition doc_result : string := "{" +:+ q "result" +:+ ":{}}".

Definition entry_json (date : string) (v : json) : json :=
  JObject [("date", JString date); ("value", v)].

Definition json_scan (body : string) : jsonError + json :=
  if Str.eqb body doc_one then
    inr (JArray [JObject []; JArray [entry_json "2021" (JNumber "7")]])
  else if Str.eqb body doc_mixed then
    inr (JArray [JObject [];
                 JArray [entry_json "2020" JNull;
                         entry_json "n/a" (JNumber "3");
                         entry_json "2019" (JNumber "5");
                         entry_json "2021" (JNumber "7");
                         JObject [("date", JString "2018")]]])
  else if Str.eqb body doc_three then
    inr (JArray [JObject []; JArray []; JNull])
  else if Str.eqb body doc_result then
    inr (JObject [("result", JObject [])])
  else inl (SyntaxError "invalid character looking for beginning of value").

Definition url_syntax_err (url : string) : option string := None.

Definition strconv_Quote (s : string) : string := q s.

Definition unicode_ToLower (s : string) : string := s.

Definition fmt_v (a : any float64) : string :=
  match a with
  | AString s => s
  | _ => "<nil>"
  end.

(** The [n]-th reading, [n] seconds after 2023-11-14T22:13:20Z (within the
    minute). *)
Definition time_Now (n : nat) : Time :=
  let s := (Z.of_nat n) mod 40 in
  {| UnixNano := 1700000000000000000 + 1000000000 * s;
     RFC3339 := "2023-11-14T22:13:" +:+ pretty (20 + s) +:+ "Z" |}.

Fixpoint has_prefix (p s : string) : bool :=
  match p, s with
  | EmptyString, _ => true
  | String a p1, String b s1 => bool_decide (a = b) && has_prefix p1 s1
  | _, _ => false
  end.

Fixpoint contains (needle hay : string) : bool :=
  has_prefix needle hay ||
  match hay with
  | EmptyString => false
  | String _ rest => contains needle rest
  end.

(** The United States answer with one point, Japan with a mixed series,
    China with an envelope of three elements, Germany with a server error;
    nobody else can be reached.  A POST is answered by the relay. *)
Definition http_RoundTrip (n : nat) (req : Request float64) : string + Response :=
  if Str.eqb (req_Method req) "POST" then
    inr {| StatusCode := 200; resp_Body := doc_result |}
  else if contains "/country/usa/" (req_URL req) then
    inr {| StatusCode := 200; resp_Body := doc_one |}
  else if contains "/country/jpn/" (req_URL req) then
    inr {| StatusCode := 200; resp_Body := doc_mixed |}
  else if contains "/country/chn/" (req_URL req) then
    inr {| StatusCode := 200; resp_Body := doc_three |}
  else if contains "/country/deu/" (req_URL req) then
    inr {| StatusCode := 503; resp_Body := "" |}
  else inl "dial tcp: connection refused".

Definition executeCollection :=
  executeCollection float64 float64_to_int ParseFloat intBits json_scan
    url_syntax_err strconv_Quote unicode_ToLower time_Now http_RoundTrip.

Definition fetchWorldBankData :=
  fetchWorldBankData float64 float64_to_int ParseFloat intBits json_scan
    url_syntax_err strconv_Quote unicode_ToLower http_RoundTrip.

Definition callTool :=
  callTool float64 float64_to_int ParseFloat intBits json_scan
    url_syntax_err strconv_Quote unicode_ToLower fmt_v time_Now http_RoundTrip.

Definition publishToMCP :=
  publishToMCP float64 ParseFloat json_scan url_syntax_err strconv_Quote fmt_v
    time_Now http_RoundTrip.

Definition reachable :=
  reachable float64 float64_to_int ParseFloat intBits json_scan
    url_syntax_err strconv_Quote unicode_ToLower fmt_v time_Now http_RoundTrip.

End Demo.

(** ** The model at work *)

(** A run over coal alone: two countries yield values, one envelope of three
    elements yields none, and twelve fetches fail. *)
Definition coal_request : request Demo.float64 :=
  ToolsCall Demo.float64 "collector.run"
    {[ "resource_ids" := ASlice [AString "coal"] ]}.

Definition coal_run : collectionRun Demo.float64 :=
  fst (Demo.executeCollection ["coal"] 0 world0).

Definition coal_world : World Demo.float64 :=
  snd (Demo.executeCollection ["coal"] 0 world0).

Example coal_run_status :
  run_Status coal_run = "partial" /\ run_Collected coal_run = 3
  /\ len (run_Errors coal_run) = 12 /\ run_Resources coal_run = 1.
Proof. repeat split; vm_compute; reflexivity. Qed.

Example coal_run_years : map cv_Year (run_Values coal_run) = [2021; 2021; 2019].
Proof. vm_compute. reflexivity. Qed.

Example coal_run_first_error :
  head (run_Errors coal_run) = Some "coal/DEU: http 503".
Proof. vm_compute. reflexivity. Qed.

Example coal_world_reachable : Demo.reachable coal_world.
Proof. exists [coal_request]. vm_compute. reflexivity. Qed.

Example scan_years :
  (Str.Sscanf_d 64 "2020Q1", Str.Sscanf_d 64 "-12", Str.Sscanf_d 64 "n/a",
   Str.Sscanf_d 64 "+7", Str.Sscanf_d 64 "", Str.Sscanf_d 32 "4294967296")
  = (Some 2020, Some (-12), None, Some 7, None, None).
Proof. vm_compute. reflexivity. Qed.

(** A tab, a no-break space (C2 A0) and blanks around a run id. *)
Example trim_run_id :
  Str.TrimSpace (String "009" (String "194" (String "160" " run-7  "))) = "run-7".
Proof. vm_compute. reflexivity. Qed.

(** A tab in front of the fragment is refused, a tab behind [#] is not. *)
Example control_byte_and_fragment :
  url_accepted Demo.float64 Demo.url_syntax_err Demo.strconv_Quote
    ("http://relay/" +:+ String "009" "mcp#top") = false /\
  url_accepted Demo.float64 Demo.url_syntax_err Demo.strconv_Quote
    ("http://relay/mcp#" +:+ String "009" "top") = true.
Proof. split; vm_compute; reflexivity. Qed.

Example get_collected_unknown_id :
  fst (Demo.callTool "collector.get_collected" {[ "run_id" := AString "run-0" ]}
         coal_world)
  = inl "no collection runs found".
Proof. vm_compute. reflexivity. Qed.

Example status_on_empty_history :
  fst (Demo.callTool "collector.status" ∅ world0)
  = inr (AMap {[ "runs" := ASlice []; "count" := AInt 0 ]}).
Proof. vm_compute. reflexivity. Qed.

Example export_before_any_run :
  fst (Demo.callTool "collector.export_jsonld" ∅ world0)
  = inl "no collection runs available; call collector.run first".
Proof. vm_compute. reflexivity. Qed.

Example publish_after_coal_run :
  exists m,
    fst (Demo.callTool "collector.publish" ∅ coal_world) = inr (AMap m) /\
    m !! "status" = Some (AString "published") /\
    m !! "values_count" = Some (AInt 3) /\
    length (sent (snd (Demo.callTool "collector.publish" ∅ coal_world)))
    = S (length (sent coal_world)).
Proof.
  eexists. split; [ vm_compute; reflexivity |]. repeat split; vm_compute; reflexivity.
Qed.

(** *** Witnesses *)

(** A request for a resource the catalog does not hold: a run is stored,
    nothing is fetched. *)
Definition gold_request : request Demo.float64 :=
  ToolsCall Demo.float64 "collector.run"
    {[ "resource_ids" := ASlice [AString "gold"] ]}.

(** A full history: the coal run, then forty-nine runs over nothing. *)
Definition full_requests : list (request Demo.float64) :=
  coal_request :: repeat gold_request 49.

Definition full_world : World Demo.float64 :=
  fold_left
    (handle Demo.float64 Demo.float64_to_int Demo.ParseFloat Demo.intBits
       Demo.json_scan Demo.url_syntax_err Demo.strconv_Quote Demo.unicode_ToLower
       Demo.fmt_v Demo.time_Now Demo.http_RoundTrip)
    full_requests world0.

(** The fifty-first run, over wheat. *)
Definition wheat_run : collectionRun Demo.float64 :=
  fst (Demo.executeCollection ["wheat"] 2023 full_world).

Definition wheat_world : World Demo.float64 :=
  snd (Demo.executeCollection ["wheat"] 2023 full_world).

Example full_world_reachable : Demo.reachable full_world.
Proof. exists full_requests. reflexivity. Qed.

Example full_world_history :
  length (runs full_world) = 50%nat /\
  take 1 (runs full_world) = [coal_run] /\
  run_Status wheat_run = "partial" /\
  run_Collected wheat_run = 3 /\
  wheat_run <> coal_run.
Proof.
  split; [ vm_compute; reflexivity |]. split; [ vm_compute; reflexivity |].
  split; [ vm_compute; reflexivity |]. split; [ vm_compute; reflexivity |].
  intros H. apply (f_equal run_ID) in H. vm_compute in H. discriminate H.
Qed.

(** C4 at a full history.  The world is reached by fifty requests and holds
    fifty runs, the coal run first.  The fifty-first append leaves fifty
    runs again: the coal run, the oldest, is the one run evicted, the other
    forty-nine keep their order, and the wheat run is stored last. *)
Lemma history_store_bounded_witness :
  Demo.reachable full_world /\
  length (runs full_world) = 50%nat /\
  length (runs wheat_world) = 50%nat /\
  (runs full_world ++ [wheat_run])%list = ([coal_run] ++ runs wheat_world)%list /\
  runs wheat_world = (drop 1 (runs full_world) ++ [wheat_run])%list /\
  last (runs wheat_world) = Some wheat_run.
Proof.
  pose proof full_world_reachable as Hreach.
  destruct full_world_history as (Hlen & Hhead & _).
  pose proof (history_store_bounded Demo.float64 Demo.float64_to_int Demo.ParseFloat
                Demo.intBits Demo.json_scan Demo.url_syntax_err Demo.strconv_Quote
                Demo.unicode_ToLower Demo.fmt_v Demo.time_Now Demo.http_RoundTrip
                ["wheat"] 2023 full_world Hreach) as H.
  cbv zeta in H. change (fst (executeCollection _ _ _ _ _ _ _ _ _ _ _ _ _)) with wheat_run in H.
  change (snd (executeCollection _ _ _ _ _ _ _ _ _ _ _ _ _)) with wheat_world in H.
  destruct H as (_ & Hbound & Hruns & (evicted & Happ & Hev & _) & Hlast).
  rewrite Hlen in Hev, Hruns.
  change (50 + 1 - 50)%nat with 1%nat in Hev, Hruns.
  rewrite Hhead in Hev. subst evicted.
  assert (Hfull : length (runs wheat_world) = 50%nat).
  { apply (f_equal (@length _)) in Happ.
    rewrite !length_app, !length_cons, !length_nil, Hlen in Happ. lia. }
  split; [ exact Hreach |]. split; [ exact Hlen |]. split; [ exact Hfull |].
  split; [ exact Happ |]. split; [| exact Hlast ].
  rewrite Hruns. apply drop_app_le. rewrite Hlen. lia.
Defined.





(** *** Where the claims part from the code *)

(** C3: an empty filter selects the ten resources of the catalog, not the
    empty set of catalog entries whose id it lists. *)
Lemma empty_filter_selects_whole_catalog :
  targetResources [] = catalog /\
  length catalog = 10%nat /\
  List.filter (fun r => bool_decide (rd_ID r ∈ @nil string)) catalog = [] /\
  run_Resources (fst (Demo.executeCollection [] 0 world0)) = 10.
Proof. repeat split; vm_compute; reflexivity. Qed.

(** A target URL with a tab in it: [http.NewRequest] refuses it. *)
Definition tabbed_url : string := "http://relay" +:+ String "009" "mcp".

(** C5: the last run holds three values, yet publishing to a URL of which no
    request can be made hands nothing to the HTTP client, and answers with an
    "error" result; and on an empty history, the other case the claim leaves
    to its "otherwise", publish calls nothing either and fails. *)
Lemma publish_to_malformed_url_sends_nothing :
  last (runs coal_world) = Some coal_run /\
  len (run_Values coal_run) = 3 /\
  sent (snd (Demo.callTool "collector.publish"
               {[ "target_mcp_url" := AString tabbed_url ]} coal_world))
  = sent coal_world /\
  (exists detail,
     fst (Demo.callTool "collector.publish"
            {[ "target_mcp_url" := AString tabbed_url ]} coal_world)
     = inr (AMap {[ "status" := AString "error"; "detail" := AString detail ]})) /\
  Demo.callTool "collector.publish" ∅ world0
  = (inl "no collection runs; call collector.run first", world0).
Proof.
  split; [ vm_compute; reflexivity |]. split; [ vm_compute; reflexivity |].
  split; [ vm_compute; reflexivity |].
  split; [ eexists; vm_compute; reflexivity | vm_compute; reflexivity ].
Qed.

(** C7: a 2xx response whose envelope has three elements is no parse error;
    the fetch succeeds with the (here empty) entries of its second element. *)
Lemma three_element_envelope_accepted :
  fst (client_Get Demo.float64 Demo.url_syntax_err Demo.strconv_Quote
         Demo.http_RoundTrip (fetch_url Demo.unicode_ToLower "EG.ELC.COAL.ZS" "CHN" 0) world0)
  = inr {| StatusCode := 200; resp_Body := "[{},[],null]" |} /\
  Demo.json_scan "[{},[],null]" = inr (JArray [JObject []; JArray []; JNull]) /\
  fst (Demo.fetchWorldBankData "EG.ELC.COAL.ZS" "CHN" 0 world0) = inr [].
Proof. repeat split; vm_compute; reflexivity. Qed.

(** C10: a [run_id] of one blank is not empty and names no stored run, yet
    the call answers with the values of the latest run. *)
Lemma blank_run_id_reads_latest :
  Forall (fun r => run_ID r <> " ") (runs coal_world) /\
  exists m,
    fst (Demo.callTool "collector.get_collected" {[ "run_id" := AString " " ]}
           coal_world) = inr (AMap m) /\
    m !! "run_id" = Some (AString (run_ID coal_run)) /\
    m !! "count" = Some (AInt 3).
Proof.
  split.
  - vm_compute. constructor; [ discriminate | constructor ].
  - eexists. split; [ vm_compute; reflexivity |]. split; vm_compute; reflexivity.
Qed.
